(** * setup.py of the cgraph package: a shallow embedding

    The repository's only source file is the distutils build script
    [setup.py].  It imports [os], [setup], [Extension] and Cython's
    [build_ext], builds three [Extension] objects whose single source
    path comes from [os.path.join], and calls [setup] once with four
    keyword arguments.

    The script is embedded as a small program over the effects a Python
    script has at its disposal (the path functions of [os.path], the
    process environment, the command line); the value it computes is
    the keyword arguments it hands to [setup]. *)

From Stdlib Require Import Ascii.
From Stdlib Require String.
From stdpp Require Import base option list strings gmap fin_maps.

Set Default Proof Using "Type".

(** ** The platform's [os.path]

    [os.path] is [posixpath] on POSIX and [ntpath] on Windows; both are
    standard-library code, outside the repository.  The functions below
    follow [posixpath], with the separator set of the platform; for
    [ntpath] they are its behaviour on paths that carry no drive and no
    UNC prefix, which is all the script feeds them ([ntpath] with
    drives is further down, with the proof that the two agree on such
    paths). *)

Inductive Platform : Type := Posix | Nt.

Module os_path.

(** [os.sep]. *)
Definition sep (p : Platform) : ascii :=
  match p with Posix => "/" | Nt => "\" end%char.

(** Membership in [seps]: ["/"] on POSIX, ["\\/"] on Windows. *)
Definition is_sep (p : Platform) (c : ascii) : bool :=
  match p with
  | Posix => bool_decide (c = "/"%char)
  | Nt => bool_decide (c = "\"%char) || bool_decide (c = "/"%char)
  end.

Definition startswith_sep (p : Platform) (s : string) : bool :=
  match s with
  | EmptyString => false
  | String c _ => is_sep p c
  end.

Definition endswith_sep (p : Platform) (s : string) : bool :=
  startswith_sep p (String.rev s).

(** [os.path.join(a, b)]: an absolute [b] replaces [a]; otherwise [b] is
    appended, after one separator unless [a] is empty or ends in one. *)
Definition join (p : Platform) (a b : string) : string :=
  if startswith_sep p b then b
  else if bool_decide (a = "") || endswith_sep p a then a +:+ b
  else a +:+ String (sep p) b.

(** [s.lstrip(seps)]. *)
Fixpoint lstrip_sep (p : Platform) (s : string) : string :=
  match s with
  | EmptyString => ""
  | String c s' => if is_sep p c then lstrip_sep p s' else s
  end.

(** The characters before the first separator, and the rest from that
    separator on. *)
Fixpoint break_sep (p : Platform) (s : string) : string * string :=
  match s with
  | EmptyString => ("", "")
  | String c s' =>
      if is_sep p c then ("", s)
      else let '(a, b) := break_sep p s' in (String c a, b)
  end.

(** [os.path.split(path)]: the tail is what follows the last separator;
    the head is the rest, with its trailing separators stripped unless
    it consists of separators only. *)
Definition split (p : Platform) (path : string) : string * string :=
  let '(rtail, rhead) := break_sep p (String.rev path) in
  let stripped := lstrip_sep p rhead in
  (String.rev (if bool_decide (stripped = "") then rhead else stripped),
   String.rev rtail).

Definition dirname (p : Platform) (path : string) : string :=
  fst (split p path).

Definition basename (p : Platform) (path : string) : string :=
  snd (split p path).

End os_path.

(** ** Python string methods used below *)

Definition endswith (s suffix : string) : bool :=
  String.prefix (String.rev suffix) (String.rev s).

(** [s.removesuffix(suffix)]. *)
Definition removesuffix (s suffix : string) : string :=
  if negb (bool_decide (suffix = "")) && endswith s suffix
  then String.substring 0 (String.length s - String.length suffix) s
  else s.

(** [s.split(c)] for a one-character separator. *)
Fixpoint str_split_go (c : ascii) (cur : string) (s : string) : list string :=
  match s with
  | EmptyString => [String.rev cur]
  | String a s' =>
      if bool_decide (a = c) then String.rev cur :: str_split_go c "" s'
      else str_split_go c (String a cur) s'
  end.

Definition str_split (c : ascii) (s : string) : list string :=
  str_split_go c "" s.

(** [c.join(l)]. *)
Fixpoint str_join (c : ascii) (l : list string) : string :=
  match l with
  | [] => ""
  | [s] => s
  | s :: l' => s +:+ String c (str_join c l')
  end.

(** [text.splitlines()] for a text whose only line boundary is the
    line feed: a final line needs no terminator, and a terminator at
    the very end opens no further line. *)
Fixpoint splitlines_go (cur : string) (s : string) : list string :=
  match s with
  | EmptyString => if bool_decide (cur = "") then [] else [String.rev cur]
  | String a s' =>
      if bool_decide (a = "010"%char) then String.rev cur :: splitlines_go "" s'
      else splitlines_go (String a cur) s'
  end.

Definition splitlines (s : string) : list string := splitlines_go "" s.

Fixpoint count_char (c : ascii) (s : string) : nat :=
  match s with
  | EmptyString => 0
  | String a s' => (if bool_decide (a = c) then 1 else 0) + count_char c s'
  end.

(** ** The objects the script builds *)

(** [distutils.extension.Extension(name, sources)]: the constructor
    stores its two positional arguments. *)
Record Extension : Type := {
  name : string;
  sources : list string
}.

(** The command classes a [cmdclass] entry can name: the class the
    script imports from [Cython.Distutils], or the one distutils ships
    for a command in [distutils.command]. *)
Inductive CommandClass : Type :=
| Cython_Distutils_build_ext
| distutils_command (command : string).

(** The keyword arguments of the call to [setup]. *)
Record SetupArgs : Type := {
  cmdclass : gmap string CommandClass;
  ext_modules : list Extension;
  package_dir : gmap string string;
  packages : list string
}.

(** ** Scripts

    What a script may ask of its surroundings: a path joined by the
    platform's [os.path.join], a variable of [os.environ], or the
    command line [sys.argv]. *)

Record World : Type := {
  platform : Platform;
  environ : gmap string string;
  argv : list string
}.

Inductive Script (A : Type) : Type :=
| Ret (a : A)
| OsPathJoin (a b : string) (k : string → Script A)
| Getenv (key : string) (k : option string → Script A)
| Argv (k : list string → Script A).

Arguments Ret {A} a.
Arguments OsPathJoin {A} a b k.
Arguments Getenv {A} key k.
Arguments Argv {A} k.

Fixpoint script_bind {A B : Type} (f : A → Script B) (s : Script A) : Script B :=
  match s with
  | Ret a => f a
  | OsPathJoin a b k => OsPathJoin a b (λ r, script_bind f (k r))
  | Getenv key k => Getenv key (λ r, script_bind f (k r))
  | Argv k => Argv (λ r, script_bind f (k r))
  end.

#[global] Instance script_ret : MRet Script := @Ret.
#[global] Instance script_mbind : MBind Script := @script_bind.

Definition os_path_join (a b : string) : Script string :=
  OsPathJoin a b Ret.

(** Running a script in a world. *)
Fixpoint run {A : Type} (w : World) (s : Script A) : A :=
  match s with
  | Ret a => a
  | OsPathJoin a b k => run w (k (os_path.join (platform w) a b))
  | Getenv key k => run w (k (environ w !! key))
  | Argv k => run w (k (argv w))
  end.

(** A script that consults neither the environment nor the command
    line. *)
Inductive EnvFree {A : Type} : Script A → Prop :=
| EnvFree_Ret (a : A) : EnvFree (Ret a)
| EnvFree_OsPathJoin (a b : string) (k : string → Script A) :
    (∀ r, EnvFree (k r)) → EnvFree (OsPathJoin a b k).

(** ** setup.py *)

(** [from Cython.Distutils import build_ext] *)
Definition build_ext : CommandClass := Cython_Distutils_build_ext.

Definition setup_py : Script SetupArgs :=
  src_c_collections ← os_path_join "cgraph" "c_collections.pyx";
  let c_collections :=
    {| name := "cgraph.c_collections"; sources := [src_c_collections] |} in
  src_dagraph ← os_path_join "cgraph" "dagraph.pyx";
  let dagraph :=
    {| name := "cgraph.dagraph"; sources := [src_dagraph] |} in
  src_iterators ← os_path_join "cgraph" "iterators.pyx";
  let iterators :=
    {| name := "cgraph.iterators"; sources := [src_iterators] |} in
  mret {|
    cmdclass := {[ "build_ext" := build_ext ]};
    ext_modules := [c_collections; dagraph; iterators];
    package_dir := {[ "cgraph" := "./cgraph" ]};
    packages := ["cgraph"]
  |}.

(** The text of the file. *)
Definition setup_py_text : string :=
"import os
from distutils.core import setup
from distutils.extension import Extension
from Cython.Distutils import build_ext

c_collections = Extension('cgraph.c_collections', [os.path.join('cgraph', 'c_collections.pyx')])
dagraph = Extension('cgraph.dagraph', [os.path.join('cgraph', 'dagraph.pyx')])
iterators = Extension('cgraph.iterators', [os.path.join('cgraph', 'iterators.pyx')])

setup(
    cmdclass = {'build_ext': build_ext},
    ext_modules = [c_collections, dagraph, iterators],
    package_dir = {'cgraph': './cgraph'},
    packages = ['cgraph'],)".

(** A line feed or a printable ASCII character. *)
Definition is_plain (c : ascii) : bool :=
  bool_decide (c = "010"%char) ||
  (bool_decide (32 ≤ nat_of_ascii c) && bool_decide (nat_of_ascii c ≤ 126)).

Fixpoint str_forallb (f : ascii → bool) (s : string) : bool :=
  match s with
  | EmptyString => true
  | String a s' => f a && str_forallb f s'
  end.

(** A path component: a string that holds no separator of the
    platform. *)
Definition sep_free (p : Platform) (s : string) : bool :=
  str_forallb (λ c, negb (os_path.is_sep p c)) s.

(** A string of separators only. *)
Definition all_sep (p : Platform) (s : string) : bool :=
  str_forallb (os_path.is_sep p) s.

(** A path in which [ntpath.splitdrive] finds no drive, by a test that
    is sufficient for it: no colon anywhere and no two separators in
    front.  On POSIX there are no drives. *)
Definition drive_free (p : Platform) (s : string) : bool :=
  match p with
  | Posix => true
  | Nt =>
      str_forallb (λ c, negb (Ascii.eqb c ":")) s &&
      negb match s with
           | String c1 (String c2 _) => os_path.is_sep Nt c1 && os_path.is_sep Nt c2
           | _ => false
           end
  end.

(** The files of the repository at hand, relative to its root. *)
Definition repository_files : list string := ["setup.py"].

(** ** What distutils does with the arguments

    Library code, outside the repository; only the lookups the
    claims speak of. *)

(** [Distribution.get_command_class] for a command that [cmdclass] has
    an entry for: that entry.  Without an entry distutils walks its
    command packages and raises DistutilsModuleError when none ships
    the command; this lookup does not follow that walk and answers with
    the class of that name in [distutils.command]. *)
Definition get_command_class (args : SetupArgs) (command : string) : CommandClass :=
  default (distutils_command command) (cmdclass args !! command).

(** The package an extension belongs to, as [build_ext] computes it
    from the dotted name: every component but the last. *)
Definition ext_package (fullname : string) : string :=
  str_join "." (removelast (str_split "." fullname)).

(** ** [os.path] in full

    The functions as [posixpath] and [ntpath] (Python 3.11) define
    them, for any number of components and, on Windows, with drives and
    UNC prefixes; [str.upper] and [str.lower] are taken on ASCII
    letters.  distutils calls them on paths the script does not
    determine, such as the build directory. *)

Definition str_nonempty (s : string) : bool :=
  match s with EmptyString => false | String _ _ => true end.

Fixpoint str_map (f : ascii → ascii) (s : string) : string :=
  match s with
  | EmptyString => ""
  | String a s' => String (f a) (str_map f s')
  end.

Definition ascii_upper (c : ascii) : ascii :=
  let n := nat_of_ascii c in
  if (97 <=? n) && (n <=? 122) then ascii_of_nat (n - 32) else c.

Definition ascii_lower (c : ascii) : ascii :=
  let n := nat_of_ascii c in
  if (65 <=? n) && (n <=? 90) then ascii_of_nat (n + 32) else c.

(** [s.find(c, start)], [None] for [-1]. *)
Fixpoint str_find (c : ascii) (s : string) (start : nat) : option nat :=
  match s with
  | EmptyString => None
  | String a s' =>
      match start with
      | 0 => if Ascii.eqb a c then Some 0 else S <$> str_find c s' 0
      | S start' => S <$> str_find c s' start'
      end
  end.

(** [s[:n]] and [s[n:]]. *)
Definition str_take (n : nat) (s : string) : string := String.substring 0 n s.

Fixpoint str_drop (n : nat) (s : string) : string :=
  match n, s with
  | S n', String _ s' => str_drop n' s'
  | _, _ => s
  end.

Module posixpath.

(** [posixpath.join(a, *p)]: the loop over [p] takes one step of
    [os_path.join] per component. *)
Definition join (a : string) (p : list string) : string :=
  fold_left (os_path.join Posix) p a.

Definition split (p : string) : string * string := os_path.split Posix p.

End posixpath.

Module ntpath.

(** [ntpath.splitdrive(p)]: a UNC or device prefix up to the second
    separator after it, or a drive letter with its colon, and the
    rest. *)
Definition splitdrive (p : string) : string * string :=
  if 2 <=? String.length p then
    let normp := str_map (λ c, if Ascii.eqb c "/" then "\"%char else c) p in
    if String.eqb (str_take 2 normp) "\\" then
      let start :=
        if String.eqb (str_map ascii_upper (str_take 8 normp)) "\\?\UNC\"
        then 8 else 2 in
      match str_find "\" normp start with
      | None => (p, "")
      | Some index =>
          match str_find "\" normp (index + 1) with
          | None => (p, "")
          | Some index2 => (str_take index2 p, str_drop index2 p)
          end
      end
    else if String.eqb (String.substring 1 1 normp) ":" then
      (str_take 2 p, str_drop 2 p)
    else ("", p)
  else ("", p).

(** The loop of [ntpath.join] over the further components, on the
    drive and the path gathered so far. *)
Fixpoint join_loop (result_drive result_path : string) (paths : list string)
    : string * string :=
  match paths with
  | [] => (result_drive, result_path)
  | p :: paths' =>
      let '(p_drive, p_path) := splitdrive p in
      let relative (result_drive : string) :=
        join_loop result_drive
          ((if str_nonempty result_path && negb (os_path.endswith_sep Nt result_path)
            then result_path +:+ "\" else result_path) +:+ p_path)
          paths' in
      if os_path.startswith_sep Nt p_path then
        join_loop
          (if str_nonempty p_drive || negb (str_nonempty result_drive)
           then p_drive else result_drive)
          p_path paths'
      else if str_nonempty p_drive && negb (String.eqb p_drive result_drive) then
        if negb (String.eqb (str_map ascii_lower p_drive)
                            (str_map ascii_lower result_drive))
        then join_loop p_drive p_path paths'
        else relative p_drive
      else relative result_drive
  end.

(** [ntpath.join(path, *paths)]. *)
Definition join (path : string) (paths : list string) : string :=
  let '(result_drive, result_path) := splitdrive path in
  let '(result_drive, result_path) := join_loop result_drive result_path paths in
  if str_nonempty result_path && negb (os_path.startswith_sep Nt result_path) &&
     str_nonempty result_drive &&
     negb (String.eqb (String.substring 0 1 (String.rev result_drive)) ":")
  then result_drive +:+ "\" +:+ result_path
  else result_drive +:+ result_path.

(** [ntpath.split(p)]: the drive stays with the head. *)
Definition split (p : string) : string * string :=
  let '(d, rest) := splitdrive p in
  let '(head, tail) := os_path.split Nt rest in
  (d +:+ head, tail).

End ntpath.

Module os_path_full.

Definition join (p : Platform) (a : string) (l : list string) : string :=
  match p with
  | Posix => posixpath.join a l
  | Nt => ntpath.join a l
  end.

Definition split (p : Platform) (path : string) : string * string :=
  match p with
  | Posix => posixpath.split path
  | Nt => ntpath.split path
  end.

Definition basename (p : Platform) (path : string) : string :=
  snd (split p path).

End os_path_full.

(** ** Where distutils puts a built extension

    [build_ext.get_ext_fullpath] and what it calls, from distutils of
    Python 3.11. *)

(** [os.path.join] applied to the components of a list; every call
    below passes at least one. *)
Definition join_star (p : Platform) (l : list string) : string :=
  match l with
  | [] => ""
  | a :: l' => os_path_full.join p a l'
  end.

(** [distutils.util.convert_path(pathname)]: a path written with "/"
    in the local convention; [None] where it raises ValueError. *)
Definition convert_path (p : Platform) (pathname : string) : option string :=
  if Ascii.eqb (os_path.sep p) "/" then Some pathname
  else if negb (str_nonempty pathname) then Some pathname
  else if String.eqb (str_take 1 pathname) "/" then None
  else if String.eqb (str_take 1 (String.rev pathname)) "/" then None
  else
    match List.filter (λ c, negb (String.eqb c ".")) (str_split "/" pathname) with
    | [] => Some "."
    | paths => Some (join_star p paths)
    end.

(** [build_py.finalize_options]: the command's own [package_dir], every
    directory of the [package_dir] given to [setup] converted. *)
Definition build_py_package_dir (p : Platform) (args : SetupArgs)
    : option (gmap string string) :=
  map_fold
    (λ name path acc, pd ← acc; path' ← convert_path p path; Some (<[name := path']> pd))
    (Some ∅) (package_dir args).

(** The [while path] loop of [build_py.get_package_dir]; [rpath] is
    [path] in reverse, so that [path[-1]] is its head. *)
Fixpoint get_package_dir_loop (p : Platform) (package_dir : gmap string string)
    (rpath tail : list string) : string :=
  match rpath with
  | [] =>
      let tail :=
        match package_dir !! "" with
        | Some pdir => pdir :: tail
        | None => tail
        end in
      if bool_decide (tail = []) then "" else join_star p tail
  | last_component :: rpath' =>
      match package_dir !! str_join "." (reverse rpath) with
      | Some pdir => join_star p (pdir :: tail)
      | None => get_package_dir_loop p package_dir rpath' (last_component :: tail)
      end
  end.

(** [build_py.get_package_dir(package)], on the command's converted
    [package_dir]. *)
Definition get_package_dir (p : Platform) (package_dir : gmap string string)
    (package : string) : string :=
  let path := str_split "." package in
  if bool_decide (package_dir = ∅) then
    if bool_decide (path = []) then "" else join_star p path
  else get_package_dir_loop p package_dir (reverse path) [].

(** The [build_ext] command once its options are final, with the two
    things it asks of the interpreter: the configuration variable
    EXT_SUFFIX and [os.path.abspath], which goes by the working
    directory. *)
Record BuildExt : Type := {
  inplace : bool;
  build_lib : string;
  package : option string;
  ext_suffix : string;
  abspath : string → string
}.

Definition get_ext_fullname (cmd : BuildExt) (ext_name : string) : string :=
  match package cmd with
  | None => ext_name
  | Some pkg => pkg +:+ "." +:+ ext_name
  end.

Definition get_ext_filename (p : Platform) (cmd : BuildExt) (ext_name : string) : string :=
  join_star p (str_split "." ext_name) +:+ ext_suffix cmd.

(** [build_ext.get_ext_fullpath(ext_name)]; [None] where finalizing
    [build_py] raises. *)
Definition get_ext_fullpath (p : Platform) (cmd : BuildExt) (args : SetupArgs)
    (ext_name : string) : option string :=
  let fullname := get_ext_fullname cmd ext_name in
  let modpath := str_split "." fullname in
  let filename := get_ext_filename p cmd (default "" (last modpath)) in
  if negb (inplace cmd) then
    let filename := join_star p (removelast modpath ++ [filename]) in
    Some (os_path_full.join p (build_lib cmd) [filename])
  else
    let package := str_join "." (removelast modpath) in
    build_py_package_dir ← build_py_package_dir p args;
    let package_dir := abspath cmd (get_package_dir p build_py_package_dir package) in
    Some (os_path_full.join p package_dir [filename]).

(** Two sample builds: one into the build directory, one in place.
    Their [abspath] joins a path onto a working directory, without the
    normalising the paths met here do not need. *)
Definition build_ext_posix : BuildExt :=
  {| inplace := false; build_lib := "build/lib.linux-x86_64-cpython-311";
     package := None; ext_suffix := ".cpython-311-x86_64-linux-gnu.so";
     abspath := λ path, posixpath.join "/home/user/graph" [path] |}.

Definition build_ext_nt_inplace : BuildExt :=
  {| inplace := true; build_lib := "build\lib.win-amd64-cpython-311";
     package := None; ext_suffix := ".cp311-win_amd64.pyd";
     abspath := λ path, ntpath.join "C:\graph" [path] |}.

(** ** Sample worlds: two on POSIX that differ in environment and
    command line, and one on Windows *)

Definition world_bare : World :=
  {| platform := Posix; environ := ∅; argv := ["setup.py"] |}.

Definition world_busy : World :=
  {| platform := Posix;
     environ := {[ "CFLAGS" := "-O0" ]};
     argv := ["setup.py"; "build_ext"; "--inplace"] |}.

Definition world_nt : World :=
  {| platform := Nt; environ := ∅; argv := ["setup.py"] |}.

(** ** General facts about scripts *)

Lemma run_ret {A : Type} (w : World) (a : A) : run w (mret a) = a.
Proof. reflexivity. Qed.

Lemma run_bind {A B : Type} (w : World) (s : Script A) (f : A → Script B) :
  run w (s ≫= f) = run w (f (run w s)).
Proof.
  induction s as [a|a b k IH|key k IH|k IH]; simpl; auto.
Qed.

Lemma EnvFree_ret {A : Type} (a : A) : EnvFree (mret a).
Proof. constructor. Qed.

Lemma EnvFree_os_path_join (a b : string) : EnvFree (os_path_join a b).
Proof. constructor. intros r. constructor. Qed.

Lemma EnvFree_bind {A B : Type} (s : Script A) (f : A → Script B) :
  EnvFree s → (∀ a, EnvFree (f a)) → EnvFree (s ≫= f).
Proof.
  intros Hs Hf. induction Hs as [a|a b k _ IH].
  - apply Hf.
  - apply (EnvFree_OsPathJoin a b). exact IH.
Qed.

(** A script that asks for nothing but joined paths computes the same
    value in any two worlds of one platform. *)
Lemma EnvFree_run {A : Type} (s : Script A) (w1 w2 : World) :
  EnvFree s → platform w1 = platform w2 → run w1 s = run w2 s.
Proof.
  intros Hs Hp. induction Hs as [a|a b k _ IH]; simpl.
  - reflexivity.
  - rewrite Hp. apply IH.
Qed.

(** Reading the environment or the command line is what [EnvFree]
    rules out. *)
Lemma Getenv_not_EnvFree {A : Type} (key : string) (k : option string → Script A) :
  ¬ EnvFree (Getenv key k).
Proof. intros H. inversion H. Qed.

Lemma Argv_not_EnvFree {A : Type} (k : list string → Script A) :
  ¬ EnvFree (Argv k).
Proof. intros H. inversion H. Qed.

(** ** What the script hands to [setup] *)

Lemma EnvFree_setup_py : EnvFree setup_py.
Proof.
  unfold setup_py.
  repeat (apply EnvFree_bind; [apply EnvFree_os_path_join | intros ?]).
  apply EnvFree_ret.
Qed.

Lemma join_cgraph (p : Platform) (file : string) :
  os_path.startswith_sep p file = false →
  os_path.join p "cgraph" file = "cgraph" +:+ String (os_path.sep p) file.
Proof.
  intros Hfile. unfold os_path.join. rewrite Hfile. by destruct p.
Qed.

Lemma run_setup_py (w : World) :
  run w setup_py =
  {| cmdclass := {[ "build_ext" := Cython_Distutils_build_ext ]};
     ext_modules :=
       [ {| name := "cgraph.c_collections";
            sources := ["cgraph" +:+ String (os_path.sep (platform w)) "c_collections.pyx"] |};
         {| name := "cgraph.dagraph";
            sources := ["cgraph" +:+ String (os_path.sep (platform w)) "dagraph.pyx"] |};
         {| name := "cgraph.iterators";
            sources := ["cgraph" +:+ String (os_path.sep (platform w)) "iterators.pyx"] |} ];
     package_dir := {[ "cgraph" := "./cgraph" ]};
     packages := ["cgraph"] |}.
Proof.
  unfold setup_py. rewrite !run_bind, run_ret. unfold os_path_join. simpl.
  by rewrite !join_cgraph by by destruct (platform w).
Qed.

Lemma elem_of_ext_modules (w : World) (e : Extension) :
  e ∈ ext_modules (run w setup_py) →
  ∃ module_name file : string,
    (module_name, file) ∈
      [("c_collections", "c_collections.pyx"); ("dagraph", "dagraph.pyx");
       ("iterators", "iterators.pyx")] ∧
    e = {| name := "cgraph." +:+ module_name;
           sources := ["cgraph" +:+ String (os_path.sep (platform w)) file] |}.
Proof.
  rewrite run_setup_py. simpl. rewrite !elem_of_cons, elem_of_nil.
  intros [->|[->|[->|[]]]]; eexists _, _; (split; [|reflexivity]);
    rewrite !elem_of_cons; auto.
Qed.

(** The declared modules, one by one. *)
Ltac each_extension H :=
  apply elem_of_ext_modules in H as (module_name & file & H & ->);
  rewrite !elem_of_cons, elem_of_nil in H;
  destruct H as [H|[H|[H|[]]]]; injection H as -> ->.

(** ** The extension modules *)

(** C1: the script declares exactly three extension modules, and the
    [ext_modules] list handed to [setup] holds them in the order
    cgraph.c_collections, cgraph.dagraph, cgraph.iterators, and nothing
    else. *)
Theorem ext_modules_names (w : World) :
  name <$> ext_modules (run w setup_py) =
    ["cgraph.c_collections"; "cgraph.dagraph"; "cgraph.iterators"] ∧
  length (ext_modules (run w setup_py)) = 3.
Proof. rewrite run_setup_py. split; reflexivity. Qed.

(** C2: every declared extension has exactly one source path, and the
    name-to-source mapping is cgraph.c_collections to
    cgraph/c_collections.pyx, cgraph.dagraph to cgraph/dagraph.pyx and
    cgraph.iterators to cgraph/iterators.pyx, the two parts joined by
    the separator of the platform. *)
Theorem ext_modules_sources (w : World) :
  Forall (λ e, length (sources e) = 1) (ext_modules (run w setup_py)) ∧
  (λ e, (name e, sources e)) <$> ext_modules (run w setup_py) =
    match platform w with
    | Posix =>
        [("cgraph.c_collections", ["cgraph/c_collections.pyx"]);
         ("cgraph.dagraph", ["cgraph/dagraph.pyx"]);
         ("cgraph.iterators", ["cgraph/iterators.pyx"])]
    | Nt =>
        [("cgraph.c_collections", ["cgraph\c_collections.pyx"]);
         ("cgraph.dagraph", ["cgraph\dagraph.pyx"]);
         ("cgraph.iterators", ["cgraph\iterators.pyx"])]
    end.
Proof.
  rewrite run_setup_py. split.
  - repeat constructor.
  - by destruct (platform w).
Qed.

(** C3: none of the source paths the three extensions declare is a file
    of the repository at hand. *)
Theorem sources_absent (w : World) (e : Extension) (src : string) :
  e ∈ ext_modules (run w setup_py) → src ∈ sources e → src ∉ repository_files.
Proof.
  intros He Hsrc. unfold repository_files. rewrite list_elem_of_singleton.
  each_extension He; simpl in Hsrc;
    apply list_elem_of_singleton in Hsrc as ->; by destruct (platform w).
Qed.

Lemma sources_absent_witness :
  {| name := "cgraph.dagraph"; sources := ["cgraph/dagraph.pyx"] |}
    ∈ ext_modules (run world_bare setup_py) ∧
  "cgraph/dagraph.pyx" ∉ repository_files.
Proof.
  assert ({| name := "cgraph.dagraph"; sources := ["cgraph/dagraph.pyx"] |}
            ∈ ext_modules (run world_bare setup_py)) as He.
  { apply list_elem_of_further, list_elem_of_here. }
  split; [exact He|].
  apply (sources_absent world_bare _ _ He). apply list_elem_of_here.
Defined.

(** ** Packages *)



(** The paths themselves, for the two sample builds. *)
Example get_ext_fullpath_build_lib :
  get_ext_fullpath Posix build_ext_posix (run world_bare setup_py) "cgraph.dagraph"
  = Some "build/lib.linux-x86_64-cpython-311/cgraph/dagraph.cpython-311-x86_64-linux-gnu.so".
Proof. vm_compute. reflexivity. Qed.

Example get_ext_fullpath_inplace :
  get_ext_fullpath Nt build_ext_nt_inplace (run world_nt setup_py) "cgraph.dagraph"
  = Some "C:\graph\cgraph\dagraph.cp311-win_amd64.pyd".
Proof. vm_compute. reflexivity. Qed.

(** C5: the name of every extension is "cgraph." followed by the base
    name of its single source file without the suffix ".pyx", and the
    directory part of that source path is cgraph. *)
Theorem extension_naming (w : World) (e : Extension) :
  e ∈ ext_modules (run w setup_py) →
  ∃ src : string,
    sources e = [src] ∧
    endswith (os_path.basename (platform w) src) ".pyx" = true ∧
    name e = "cgraph." +:+ removesuffix (os_path.basename (platform w) src) ".pyx" ∧
    os_path.dirname (platform w) src = "cgraph".
Proof.
  intros He. each_extension He; eexists; (split; [reflexivity|]);
    destruct (platform w); vm_compute; auto.
Qed.

Lemma extension_naming_witness :
  ∃ src : string,
    [ "cgraph\iterators.pyx" ] = [src] ∧
    endswith (os_path.basename Nt src) ".pyx" = true ∧
    "cgraph.iterators" = "cgraph." +:+ removesuffix (os_path.basename Nt src) ".pyx" ∧
    os_path.dirname Nt src = "cgraph".
Proof.
  apply (extension_naming world_nt
           {| name := "cgraph.iterators"; sources := ["cgraph\iterators.pyx"] |}).
  apply list_elem_of_further, list_elem_of_further, list_elem_of_here.
Defined.

(** C9: the only entry of [packages], cgraph, is the only key of
    [package_dir], and the package of every extension, the dotted prefix
    of its name, is that entry: none is declared outside the package. *)
Theorem package_consistency (w : World) :
  packages (run w setup_py) = ["cgraph"] ∧
  dom (package_dir (run w setup_py)) = ({["cgraph"]} : gset string) ∧
  Forall (λ e,
      ext_package (name e) = "cgraph" ∧
      ext_package (name e) ∈ packages (run w setup_py))
    (ext_modules (run w setup_py)).
Proof.
  rewrite run_setup_py. simpl.
  split; [reflexivity|]. split; [apply dom_singleton_L|].
  repeat constructor.
Qed.

(** ** The build command *)

(** C8: [cmdclass] maps the command build_ext to the class imported
    from Cython.Distutils, so that class, not the one distutils ships,
    is what the build_ext command resolves to for the three .pyx
    sources. *)
Theorem build_ext_is_cython (w : World) :
  cmdclass (run w setup_py) !! "build_ext" = Some Cython_Distutils_build_ext ∧
  get_command_class (run w setup_py) "build_ext" = Cython_Distutils_build_ext ∧
  get_command_class (run w setup_py) "build_ext" ≠ distutils_command "build_ext" ∧
  Forall (λ e, Forall (λ src, endswith src ".pyx" = true) (sources e))
    (ext_modules (run w setup_py)).
Proof.
  unfold get_command_class. rewrite run_setup_py. simpl.
  rewrite lookup_singleton_eq. simpl.
  split; [reflexivity|]. split; [reflexivity|]. split; [discriminate|].
  destruct (platform w); repeat constructor.
Qed.

(** ** The file *)

Lemma setup_py_text_plain : str_forallb is_plain setup_py_text = true.
Proof. vm_compute. reflexivity. Qed.

Lemma setup_py_text_newlines : count_char "010" setup_py_text = 13.
Proof. vm_compute. reflexivity. Qed.

Lemma setup_py_text_last_line :
  last (splitlines setup_py_text) = Some "    packages = ['cgraph'],)".
Proof. vm_compute. reflexivity. Qed.

(** C6: the build script is 14 lines long. *)
Theorem setup_py_line_count : length (splitlines setup_py_text) = 14.
Proof. vm_compute. reflexivity. Qed.

(** ** Determinism *)

(** C7: the script reads neither the command line nor the environment;
    two runs on one platform hand the same arguments to [setup],
    whatever the environment and the command line hold. *)
Theorem setup_py_deterministic (w1 w2 : World) :
  platform w1 = platform w2 →
  EnvFree setup_py ∧ run w1 setup_py = run w2 setup_py.
Proof.
  intros Hp. split; [apply EnvFree_setup_py|].
  apply EnvFree_run; [apply EnvFree_setup_py | exact Hp].
Qed.

Lemma worlds_differ :
  environ world_bare !! "CFLAGS" ≠ environ world_busy !! "CFLAGS" ∧
  argv world_bare ≠ argv world_busy.
Proof.
  split; [|discriminate]. simpl.
  rewrite lookup_empty, lookup_singleton_eq. discriminate.
Qed.

Lemma setup_py_deterministic_witness :
  platform world_bare = platform world_busy ∧
  EnvFree setup_py ∧ run world_bare setup_py = run world_busy setup_py.
Proof.
  split; [reflexivity|].
  apply (setup_py_deterministic world_bare world_busy). reflexivity.
Defined.

(** ** Further properties of the script *)

(** No module is declared twice, and no source file is listed twice,
    within one extension or across the three. *)
Theorem ext_modules_distinct (w : World) :
  NoDup (name <$> ext_modules (run w setup_py)) ∧
  NoDup (ext_modules (run w setup_py) ≫= sources).
Proof.
  rewrite run_setup_py.
  split; [|destruct (platform w)];
    apply (bool_decide_unpack _); vm_compute; exact I.
Qed.

(** [cmdclass] overrides build_ext and nothing else: it has that one
    key, and no entry for any other command. *)
Theorem cmdclass_only_build_ext (w : World) :
  dom (cmdclass (run w setup_py)) = ({["build_ext"]} : gset string) ∧
  ∀ command : string,
    is_Some (cmdclass (run w setup_py) !! command) ↔ command = "build_ext".
Proof.
  rewrite run_setup_py. simpl. split; [apply dom_singleton_L|].
  intros command. rewrite <- elem_of_dom, dom_singleton_L. set_solver.
Qed.

(** The platform shows in the source paths only: the command classes,
    the module names in their order, the package directories and the
    packages are the same in any two worlds. *)
Theorem setup_args_across_platforms (w1 w2 : World) :
  cmdclass (run w1 setup_py) = cmdclass (run w2 setup_py) ∧
  name <$> ext_modules (run w1 setup_py) = name <$> ext_modules (run w2 setup_py) ∧
  package_dir (run w1 setup_py) = package_dir (run w2 setup_py) ∧
  packages (run w1 setup_py) = packages (run w2 setup_py).
Proof. rewrite !run_setup_py. repeat split. Qed.

(** The source paths do depend on the platform: worlds of different
    platforms never get the same arguments. *)
Theorem sources_depend_on_platform (w1 w2 : World) :
  platform w1 ≠ platform w2 → run w1 setup_py ≠ run w2 setup_py.
Proof.
  intros Hp Heq. apply (f_equal ext_modules) in Heq.
  rewrite !run_setup_py in Heq. simpl in Heq.
  destruct (platform w1), (platform w2); try done; vm_compute in Heq;
    discriminate.
Qed.

Lemma sources_depend_on_platform_witness :
  run world_bare setup_py ≠ run world_nt setup_py.
Proof.
  apply (sources_depend_on_platform world_bare world_nt). discriminate.
Defined.

(** ** [os.path.split] undoes [os.path.join] *)

Section split_join.
Variable p : Platform.

Lemma rev_app_spec (s1 s2 : string) :
  String.rev_app s1 s2 = String.rev s1 +:+ s2.
Proof.
  unfold String.rev. revert s2.
  induction s1 as [|c s1 IH]; intros s2; simpl; [reflexivity|].
  rewrite (IH (String c s2)), (IH (String c "")).
  generalize (String.rev_app s1 "") as r. intros r.
  induction r as [|d r IHr]; [reflexivity|].
  change (String d (r +:+ String c s2) = String d ((r +:+ String c "") +:+ s2)).
  by rewrite IHr.
Qed.

Lemma rev_app_append (s1 s2 acc : string) :
  String.rev_app (s1 +:+ s2) acc = String.rev_app s2 (String.rev_app s1 acc).
Proof.
  revert acc. induction s1 as [|c s1 IH]; intros acc; [reflexivity|].
  change (String.rev_app (s1 +:+ s2) (String c acc) =
          String.rev_app s2 (String.rev_app s1 (String c acc))).
  apply IH.
Qed.

Lemma rev_append_sep (a b : string) (c : ascii) :
  String.rev (a +:+ String c b) = String.rev b +:+ String c (String.rev a).
Proof.
  unfold String.rev at 1. rewrite rev_app_append. simpl.
  by rewrite (rev_app_spec b).
Qed.

Lemma rev_involutive (s : string) : String.rev (String.rev s) = s.
Proof.
  induction s as [|c s IH]; [reflexivity|].
  change (String.rev (String c s)) with (String.rev_app s (String c "")).
  rewrite rev_app_spec, rev_append_sep. simpl. by rewrite IH.
Qed.

Lemma rev_append (a b : string) :
  String.rev (a +:+ b) = String.rev b +:+ String.rev a.
Proof.
  unfold String.rev at 1. rewrite rev_app_append. apply rev_app_spec.
Qed.

Lemma sep_free_rev_app (s acc : string) :
  sep_free p (String.rev_app s acc) = sep_free p s && sep_free p acc.
Proof.
  revert acc. induction s as [|c s IH]; intros acc; [reflexivity|].
  simpl. rewrite IH. unfold sep_free. simpl.
  destruct (os_path.is_sep p c); simpl; [|reflexivity].
  by rewrite andb_false_r.
Qed.

Lemma sep_free_rev (s : string) : sep_free p (String.rev s) = sep_free p s.
Proof. unfold String.rev. rewrite sep_free_rev_app. apply andb_true_r. Qed.

Lemma sep_free_startswith (s : string) :
  sep_free p s = true → os_path.startswith_sep p s = false.
Proof.
  destruct s as [|c s]; [reflexivity|]. unfold sep_free. simpl.
  by destruct (os_path.is_sep p c).
Qed.

(** Breaking at the first separator: a separator-free prefix comes off
    whole when what follows is empty or starts with a separator. *)
Lemma break_sep_append (x y : string) :
  sep_free p x = true →
  y = "" ∨ os_path.startswith_sep p y = true →
  os_path.break_sep p (x +:+ y) = (x, y).
Proof.
  intros Hx Hy. induction x as [|c x IH].
  - change ("" +:+ y) with y. destruct Hy as [->|Hy]; [reflexivity|].
    destruct y as [|d y]; [discriminate|]. simpl in *. by rewrite Hy.
  - unfold sep_free in Hx. simpl in Hx.
    change (String c x +:+ y) with (String c (x +:+ y)). simpl.
    destruct (os_path.is_sep p c); [discriminate|].
    by rewrite IH.
Qed.

Lemma lstrip_sep_relative (s : string) :
  os_path.startswith_sep p s = false → os_path.lstrip_sep p s = s.
Proof.
  destruct s as [|c s]; [reflexivity|]. simpl. by intros ->.
Qed.

Lemma is_sep_sep : os_path.is_sep p (os_path.sep p) = true.
Proof. by destruct p. Qed.

Lemma append_empty_r (s : string) : s +:+ "" = s.
Proof.
  induction s as [|c s IH]; [reflexivity|].
  change (String c (s +:+ "") = String c s). by rewrite IH.
Qed.

Lemma rev_empty_inv (s : string) : String.rev s = "" → s = "".
Proof. intros H. by rewrite <- (rev_involutive s), H. Qed.

(** The model's round trip: a directory that does not end in a
    separator comes back. *)
Lemma split_join_core (a b : string) :
  os_path.endswith_sep p a = false →
  sep_free p b = true →
  os_path.split p (os_path.join p a b) = (a, b).
Proof.
  intros Ha Hb. unfold os_path.join.
  rewrite (sep_free_startswith b Hb), Ha, orb_false_r.
  assert (sep_free p (String.rev b) = true) as Hrb by by rewrite sep_free_rev.
  unfold os_path.split. case_bool_decide as Hempty.
  - subst a. change ("" +:+ b) with b.
    rewrite <- (append_empty_r (String.rev b)).
    rewrite (break_sep_append _ "" Hrb) by by left.
    simpl. by rewrite rev_involutive.
  - rewrite rev_append_sep.
    rewrite (break_sep_append _ (String (os_path.sep p) (String.rev a)) Hrb)
      by (right; apply is_sep_sep).
    simpl. rewrite is_sep_sep, (lstrip_sep_relative _ Ha).
    rewrite bool_decide_eq_false_2 by (intros H; by apply rev_empty_inv in H).
    by rewrite !rev_involutive.
Qed.

Lemma basename_join_core (a b : string) :
  sep_free p b = true →
  os_path.basename p (os_path.join p a b) = b.
Proof.
  intros Hb. unfold os_path.join, os_path.basename.
  rewrite (sep_free_startswith b Hb).
  assert (sep_free p (String.rev b) = true) as Hrb by by rewrite sep_free_rev.
  unfold os_path.split.
  destruct (bool_decide (a = "") || os_path.endswith_sep p a) eqn:Hdir.
  - rewrite rev_append, (break_sep_append _ (String.rev a) Hrb).
    + simpl. apply rev_involutive.
    + apply orb_true_iff in Hdir as [Hempty|Hends]; [left|by right].
      apply bool_decide_eq_true in Hempty. by subst a.
  - rewrite rev_append_sep.
    rewrite (break_sep_append _ (String (os_path.sep p) (String.rev a)) Hrb)
      by (right; apply is_sep_sep).
    simpl. apply rev_involutive.
Qed.

Lemma str_forallb_rev_app (f : ascii → bool) (s acc : string) :
  str_forallb f (String.rev_app s acc) = str_forallb f s && str_forallb f acc.
Proof.
  revert acc. induction s as [|c s IH]; intros acc; [reflexivity|].
  simpl. rewrite IH. simpl. destruct (f c); simpl; [reflexivity|].
  apply andb_false_r.
Qed.

Lemma all_sep_rev (s : string) : all_sep p (String.rev s) = all_sep p s.
Proof.
  unfold all_sep, String.rev. rewrite str_forallb_rev_app. apply andb_true_r.
Qed.

Lemma lstrip_sep_all_sep (s : string) :
  os_path.lstrip_sep p s = "" ↔ all_sep p s = true.
Proof.
  unfold all_sep. induction s as [|c s IH]; [done|]. simpl.
  destruct (os_path.is_sep p c); simpl; [exact IH|]. split; discriminate.
Qed.

Lemma lstrip_sep_length (s : string) :
  String.length (os_path.lstrip_sep p s) ≤ String.length s.
Proof.
  induction s as [|c s IH]; simpl; [lia|].
  destruct (os_path.is_sep p c); simpl; lia.
Qed.

Lemma lstrip_sep_shorter (s : string) :
  os_path.startswith_sep p s = true → os_path.lstrip_sep p s ≠ s.
Proof.
  destruct s as [|c s]; [discriminate|]. simpl. intros -> Heq.
  pose proof (lstrip_sep_length s) as Hlen. rewrite Heq in Hlen. simpl in Hlen. lia.
Qed.

(** When exactly the model's round trip holds. *)
Lemma split_join_iff (a b : string) :
  sep_free p b = true →
  os_path.split p (os_path.join p a b) = (a, b) ↔
  os_path.endswith_sep p a = false ∨ all_sep p a = true.
Proof.
  intros Hb.
  assert (sep_free p (String.rev b) = true) as Hrb by by rewrite sep_free_rev.
  split.
  - intros Heq. destruct (os_path.endswith_sep p a) eqn:Ha; [right|by left].
    unfold os_path.join in Heq.
    rewrite (sep_free_startswith b Hb), Ha, orb_true_r in Heq.
    unfold os_path.split in Heq.
    rewrite rev_append, (break_sep_append _ (String.rev a) Hrb) in Heq by by right.
    simpl in Heq. case_bool_decide as Hstrip.
    + rewrite <- all_sep_rev. by apply lstrip_sep_all_sep.
    + exfalso. injection Heq as Heq _.
      apply (lstrip_sep_shorter (String.rev a) Ha).
      apply (f_equal String.rev) in Heq. by rewrite rev_involutive in Heq.
  - intros [Ha|Ha]; [by apply split_join_core|].
    assert (os_path.lstrip_sep p (String.rev a) = "") as Hstrip.
    { apply lstrip_sep_all_sep. by rewrite all_sep_rev. }
    assert (String.rev a = "" ∨ os_path.startswith_sep p (String.rev a) = true)
      as Hra.
    { rewrite <- all_sep_rev in Ha. unfold all_sep in Ha.
      destruct (String.rev a) as [|c r]; [by left|right]. simpl in *.
      by destruct (os_path.is_sep p c). }
    assert (bool_decide (a = "") || os_path.endswith_sep p a = true) as Hdir.
    { destruct Hra as [Hra|Hra].
      - apply rev_empty_inv in Hra. subst a. reflexivity.
      - unfold os_path.endswith_sep. rewrite Hra. apply orb_true_r. }
    unfold os_path.join. rewrite (sep_free_startswith b Hb), Hdir.
    unfold os_path.split.
    rewrite rev_append, (break_sep_append _ (String.rev a) Hrb) by done.
    simpl. rewrite Hstrip, bool_decide_eq_true_2 by done.
    by rewrite !rev_involutive.
Qed.

End split_join.

(** ** The model of [os.path] and [os.path] in full

    On paths without a drive the functions of [os_path], which the
    script's own calls are modelled by, are those of [ntpath]. *)

Lemma norm_sep_is_sep (c : ascii) :
  Ascii.eqb (if Ascii.eqb c "/" then "\"%char else c) "\" = os_path.is_sep Nt c.
Proof.
  simpl. destruct (Ascii.eqb_spec c "/") as [->|Hslash]; [reflexivity|].
  rewrite (bool_decide_eq_false_2 (c = "/"%char)) by done. rewrite orb_false_r.
  destruct (Ascii.eqb_spec c "\") as [->|Hback]; [reflexivity|].
  by rewrite bool_decide_eq_false_2.
Qed.

Lemma norm_sep_colon (c : ascii) :
  Ascii.eqb (if Ascii.eqb c "/" then "\"%char else c) ":" = Ascii.eqb c ":".
Proof. by destruct (Ascii.eqb_spec c "/") as [->|_]. Qed.

Lemma splitdrive_drive_free (s : string) :
  drive_free Nt s = true → ntpath.splitdrive s = ("", s).
Proof.
  intros [Hcolon Hfront]%andb_true_iff.
  destruct s as [|c1 [|c2 r]]; [reflexivity..|].
  apply negb_true_iff in Hfront.
  cbn [str_forallb] in Hcolon.
  apply andb_true_iff in Hcolon as [_ [Hc2%negb_true_iff _]%andb_true_iff].
  unfold ntpath.splitdrive, str_take.
  cbn [String.length Nat.leb str_map String.substring String.eqb].
  rewrite !norm_sep_is_sep, norm_sep_colon, Hc2.
  destruct (os_path.is_sep Nt c1), (os_path.is_sep Nt c2);
    try discriminate; reflexivity.
Qed.

Lemma append_assoc (s1 s2 s3 : string) :
  (s1 +:+ s2) +:+ s3 = s1 +:+ s2 +:+ s3.
Proof.
  induction s1 as [|c s1 IH]; [reflexivity|].
  change (String c ((s1 +:+ s2) +:+ s3) = String c (s1 +:+ s2 +:+ s3)).
  by rewrite IH.
Qed.

Lemma ntpath_join_drive_free (a b : string) :
  drive_free Nt a = true → drive_free Nt b = true →
  ntpath.join a [b] = os_path.join Nt a b.
Proof.
  intros Ha Hb. unfold ntpath.join, os_path.join.
  rewrite (splitdrive_drive_free a Ha). cbn [ntpath.join_loop].
  rewrite (splitdrive_drive_free b Hb).
  destruct (os_path.startswith_sep Nt b) eqn:Hstart.
  - cbn. by rewrite !andb_false_r.
  - cbn [str_nonempty andb negb String.eqb].
    destruct a as [|c a']; [by rewrite !andb_false_r|].
    cbn [str_nonempty andb bool_decide orb].
    rewrite bool_decide_eq_false_2 by done. cbn [orb].
    destruct (os_path.endswith_sep Nt (String c a')); cbn [negb];
      rewrite ?andb_false_r; [reflexivity|].
    by rewrite append_assoc.
Qed.

Lemma ntpath_split_drive_free (s : string) :
  drive_free Nt s = true → ntpath.split s = os_path.split Nt s.
Proof.
  intros Hs. unfold ntpath.split. rewrite (splitdrive_drive_free s Hs).
  by destruct (os_path.split Nt s).
Qed.

Lemma str_forallb_append (f : ascii → bool) (s1 s2 : string) :
  str_forallb f (s1 +:+ s2) = str_forallb f s1 && str_forallb f s2.
Proof.
  induction s1 as [|c s1 IH]; [reflexivity|].
  change (String c s1 +:+ s2) with (String c (s1 +:+ s2)). simpl.
  by rewrite IH, andb_assoc.
Qed.

(** Joining a separator-free component onto a path without a drive
    gives a path without a drive. *)
Lemma join_drive_free (a b : string) :
  drive_free Nt a = true → drive_free Nt b = true → sep_free Nt b = true →
  drive_free Nt (os_path.join Nt a b) = true.
Proof.
  intros [Ha Hfront]%andb_true_iff [Hb _]%andb_true_iff Hsep.
  unfold os_path.join. rewrite (sep_free_startswith Nt b Hsep).
  assert (os_path.startswith_sep Nt b = false) as Hstart
    by by apply sep_free_startswith.
  unfold drive_free. apply andb_true_iff. split.
  - destruct (bool_decide (a = "") || os_path.endswith_sep Nt a);
      rewrite str_forallb_append; [by rewrite Ha, Hb|].
    cbn [str_forallb]. by rewrite Ha, Hb.
  - destruct a as [|c1 [|c2 a']].
    + change ("" +:+ b) with b. cbn [bool_decide orb].
      rewrite bool_decide_eq_true_2 by done. cbn [orb].
      change ("" +:+ b) with b.
      destruct b as [|d1 [|d2 b']]; [reflexivity..|].
      change (os_path.is_sep Nt d1 = false) in Hstart. by rewrite Hstart.
    + rewrite bool_decide_eq_false_2 by done. cbn [orb].
      unfold os_path.endswith_sep. cbn [String.rev String.rev_app os_path.startswith_sep].
      destruct (os_path.is_sep Nt c1) eqn:Hc1.
      * change (String c1 "" +:+ b) with (String c1 b).
        destruct b as [|d1 b']; [reflexivity|].
        change (os_path.is_sep Nt d1 = false) in Hstart.
        cbv iota. by rewrite Hc1, Hstart.
      * change (String c1 "" +:+ String (os_path.sep Nt) b)
          with (String c1 (String (os_path.sep Nt) b)).
        cbv iota. by rewrite Hc1.
    + destruct (bool_decide (String c1 (String c2 a') = "") ||
                os_path.endswith_sep Nt (String c1 (String c2 a'))); exact Hfront.
Qed.

Lemma os_path_full_join_drive_free (p : Platform) (a b : string) :
  drive_free p a = true → drive_free p b = true →
  os_path_full.join p a [b] = os_path.join p a b.
Proof.
  destruct p; [reflexivity|]. apply ntpath_join_drive_free.
Qed.

(** The three calls of the script are within the model's reach. *)
Lemma setup_py_joins_drive_free (p : Platform) :
  Forall (λ file, os_path_full.join p "cgraph" [file] = os_path.join p "cgraph" file)
    ["c_collections.pyx"; "dagraph.pyx"; "iterators.pyx"].
Proof.
  destruct p;
    repeat (apply Forall_cons_2; [by apply os_path_full_join_drive_free|]);
    constructor.
Qed.

(** Round trip of [os.path.join] and [os.path.split]: with no drive in
    directory [a] or component [b], and no separator in [b], splitting
    the joined path gives [(a, b)] back exactly when [a] does not end
    in a separator or consists of separators only. *)
Theorem os_path_split_join (p : Platform) (a b : string) :
  drive_free p a = true → drive_free p b = true → sep_free p b = true →
  os_path_full.split p (os_path_full.join p a [b]) = (a, b) ↔
  os_path.endswith_sep p a = false ∨ all_sep p a = true.
Proof.
  intros Ha Hb Hsep. rewrite os_path_full_join_drive_free by done.
  destruct p; [by apply split_join_iff|].
  unfold os_path_full.split.
  rewrite ntpath_split_drive_free by by apply join_drive_free.
  by apply split_join_iff.
Qed.

Lemma os_path_split_join_witness :
  os_path_full.split Nt (os_path_full.join Nt "cgraph" ["dagraph.pyx"])
    = ("cgraph", "dagraph.pyx") ↔
  os_path.endswith_sep Nt "cgraph" = false ∨ all_sep Nt "cgraph" = true.
Proof.
  apply (os_path_split_join Nt "cgraph" "dagraph.pyx"); reflexivity.
Defined.

(** With no drive in directory [a] or component [b], and no separator
    in [b], the base name of the joined path is [b], whatever [a]
    ends in. *)
Theorem os_path_basename_join (p : Platform) (a b : string) :
  drive_free p a = true → drive_free p b = true → sep_free p b = true →
  os_path_full.basename p (os_path_full.join p a [b]) = b.
Proof.
  intros Ha Hb Hsep. rewrite os_path_full_join_drive_free by done.
  unfold os_path_full.basename.
  destruct p; [by apply basename_join_core|].
  unfold os_path_full.split.
  rewrite ntpath_split_drive_free by by apply join_drive_free.
  by apply basename_join_core.
Qed.

Lemma os_path_basename_join_witness :
  os_path_full.basename Posix (os_path_full.join Posix "build/" ["iterators.pyx"])
  = "iterators.pyx".
Proof.
  apply (os_path_basename_join Posix "build/" "iterators.pyx"); reflexivity.
Defined.

(** The two sides of the round trip, and what a drive does to it. *)
Example split_join_trailing_sep :
  os_path_full.split Posix (os_path_full.join Posix "cgraph/" ["dagraph.pyx"])
  = ("cgraph", "dagraph.pyx").
Proof. reflexivity. Qed.

Example split_join_root :
  os_path_full.split Nt (os_path_full.join Nt "/" ["dagraph.pyx"])
  = ("/", "dagraph.pyx").
Proof. reflexivity. Qed.

Example split_join_drive :
  os_path_full.join Nt "cgraph" ["C:x.pyx"] = "C:x.pyx" ∧
  os_path_full.split Nt "C:x.pyx" = ("C:", "x.pyx").
Proof. split; reflexivity. Qed.
